(** * MoneyTracker: the React client (App) and the Express routes (api/index.js)

    A shallow embedding of the two source files.

    - JavaScript values are a tagged union [JSVal].  The routes pass the
      values of a request body along without computing on them; a number
      inside such a value is carried as an integer ([JNum]).
    - The numbers the client computes with, the prices it adds up and
      compares with zero, are binary64 floating-point numbers: [spec_float]
      with the operations of the Standard Library at precision 53 and
      maximal exponent 1024, rounding to nearest, ties to even.
    - JavaScript strings are [string]; one character stands for one code unit,
      so [String.length] is the [.length] of the source.
    - The request body that [express.json()] hands to a route is a
      [gmap string JSVal]; a missing key reads as [JUndefined].
    - React state is a record, and every handler is a transition that returns
      the next state together with the effects it issued (network calls,
      console output).
    - The document store behind the Mongoose model [Transaction] is a
      parameter of the routes. *)

From Stdlib Require Import ZArith QArith Qpower String Ascii List Bool Lia SpecFloat.
From stdpp Require Import gmap strings list.

Open Scope string_scope.
Local Set Warnings "-register-all".

(** ** JavaScript values *)

Inductive JSVal : Type :=
| JUndefined
| JNull
| JBool (b : bool)
| JNum (n : Z)
| JStr (s : string)
| JArr (xs : list JSVal)
| JObj (fields : list (string * JSVal)).

(** [obj.key] on an object literal: the first binding of [key], else
    [undefined]. *)
Fixpoint get_field (key : string) (fields : list (string * JSVal)) : JSVal :=
  match fields with
  | [] => JUndefined
  | (k, v) :: rest => if String.eqb k key then v else get_field key rest
  end.

Definition prop (key : string) (v : JSVal) : JSVal :=
  match v with
  | JObj fields => get_field key fields
  | _ => JUndefined
  end.

Definition is_undefined (v : JSVal) : bool :=
  match v with JUndefined => true | _ => false end.

(** [JSON.stringify] leaves out the keys of an object whose value is
    [undefined]; the value that reaches the wire is the object without them. *)
Definition json_object (fields : list (string * JSVal)) : JSVal :=
  JObj (List.filter (fun kv => negb (is_undefined (snd kv))) fields).

(** ** JavaScript numbers *)

Module Num.

(** The format of a JavaScript number: binary64. *)
Definition prec : Z := 53.
Definition emax : Z := 1024.

(** The literal [0]. *)
Definition zero : spec_float := S754_zero false.

(** [x + y] on two numbers. *)
Definition add (x y : spec_float) : spec_float := SFadd prec emax x y.

(** [x < y] on two numbers; [false] when one of them is [NaN]. *)
Definition ltb (x y : spec_float) : bool := SFltb x y.

(** The number nearest to [m * 2^e], as a numeric literal of that value
    reads; [of_Z n] is the one of the integer [n]. *)
Definition dyadic (m e : Z) : spec_float := binary_normalize prec emax m e false.
Definition of_Z (n : Z) : spec_float := dyadic n 0.

End Num.

(** ** String operations of the client *)

Module Str.

(** [s.split(sep)] for a one-character separator.  The result is never
    empty: [''.split(' ')] is [['']]. *)
Fixpoint split (sep : ascii) (s : string) : list string :=
  match s with
  | EmptyString => [EmptyString]
  | String c rest =>
      if Ascii.eqb c sep then EmptyString :: split sep rest
      else match split sep rest with
           | [] => [String c EmptyString]
           | piece :: pieces => String c piece :: pieces
           end
  end.

(** [arr[0]] on an array of strings; [None] is [undefined]. *)
Definition first (pieces : list string) : option string := head pieces.

(** [s.substring(start)] with a single, non-negative argument: [start] is
    clamped to the length of [s]. *)
Fixpoint substring (start : nat) (s : string) : string :=
  match start, s with
  | O, _ => s
  | S n, String _ rest => substring n rest
  | S _, EmptyString => EmptyString
  end.

(** Whether [c] occurs in [s]. *)
Fixpoint mem (c : ascii) (s : string) : bool :=
  match s with
  | EmptyString => false
  | String d rest => Ascii.eqb d c || mem c rest
  end.

End Str.

Definition space : ascii := " "%char.

(** ** The client: App *)

(** A transaction as the list endpoint delivers it to the client. *)
Module Txn.
Record t : Type := mk {
  _id : string;
  name : string;
  description : string;
  dateTime : string;
  price : spec_float
}.
End Txn.

Module Client.

(** The four [useState] cells of [App]. *)
Record State : Type := mkState {
  name : string;
  description : string;
  dateTime : string;
  transactions : list Txn.t
}.

(** What a handler does besides updating the state. *)
Inductive Effect : Type :=
| PreventDefault
| Fetch (method : string) (url : string)
        (headers : list (string * string)) (body : option JSVal)
| ConsoleLog (label : string) (v : JSVal).

Definition is_fetch (e : Effect) : bool :=
  match e with Fetch _ _ _ _ => true | _ => false end.

Definition initial : State :=
  {| name := ""; description := ""; dateTime := ""; transactions := [] |}.

Definition setName (v : string) (st : State) : State :=
  {| name := v; description := description st;
     dateTime := dateTime st; transactions := transactions st |}.

Definition setDescription (v : string) (st : State) : State :=
  {| name := name st; description := v;
     dateTime := dateTime st; transactions := transactions st |}.

Definition setDateTime (v : string) (st : State) : State :=
  {| name := name st; description := description st;
     dateTime := v; transactions := transactions st |}.

Definition setTransactions (ts : list Txn.t) (st : State) : State :=
  {| name := name st; description := description st;
     dateTime := dateTime st; transactions := ts |}.

Section WithEnv.

(** [process.env.REACT_APP_API_URL], fixed at build time. *)
Variable REACT_APP_API_URL : string.

(** [getTransactions]: one GET on the collection endpoint. *)
Definition getTransactions : list Effect :=
  let url := REACT_APP_API_URL ++ "/transaction" in
  [Fetch "GET" url [] None].

(** [useEffect(..., [])]: runs once, when the component mounts. *)
Definition mount (st : State) : State * list Effect :=
  (st, getTransactions).

(** [getTransactions().then(setTransactions)]. *)
Definition load_complete (ts : list Txn.t) (st : State)
  : State * list Effect :=
  (setTransactions ts st, []).

(** [name.split(" ")[0]]. *)
Definition price_token (st : State) : string :=
  match Str.first (Str.split space (name st)) with
  | Some price => price
  | None => ""
  end.

(** The object handed to [JSON.stringify] in [addNewTransaction]. *)
Definition payload (st : State) : JSVal :=
  let price := price_token st in
  json_object
    [("price", JStr price);
     ("name", JStr (Str.substring (String.length price + 1) (name st)));
     ("description", JStr (description st));
     ("dateTime", JStr (dateTime st))].

(** [addNewTransaction(event)], up to the moment the request is sent. *)
Definition addNewTransaction (st : State) : State * list Effect :=
  let url := REACT_APP_API_URL ++ "/transaction" in
  (st,
   [PreventDefault;
    Fetch "POST" url [("content-type", "application/json")]
          (Some (payload st))]).

(** The JSON bodies of the POST requests among the effects of a handler. *)
Definition posted_bodies (effects : list Effect) : list JSVal :=
  flat_map (fun e =>
              match e with
              | Fetch method _ _ (Some body) =>
                  if String.eqb method "POST" then [body] else []
              | _ => []
              end) effects.

(** What one submit puts on the wire. *)
Definition posted (st : State) : list JSVal :=
  posted_bodies (snd (addNewTransaction st)).

(** The body of the innermost [then]: the submit-complete transition. *)
Definition submit_complete (json : JSVal) (st : State)
  : State * list Effect :=
  (setDescription "" (setDateTime "" (setName "" st)),
   [ConsoleLog "result" json]).

(** [.then(response => response.json().then(...))]: [parsed] is the
    outcome of [response.json()]; when the body is not JSON the promise
    rejects and nothing observes it. *)
Definition on_post_response (parsed : option JSVal) (st : State)
  : State * list Effect :=
  match parsed with
  | Some json => submit_complete json st
  | None => (st, [])
  end.

(** The balance loop, run on every render. *)
Definition balance (st : State) : spec_float :=
  fold_left (fun balance transaction => Num.add balance (Txn.price transaction))
            (transactions st) Num.zero.

(** [color: balance < 0 ? "red" : "green"]. *)
Definition balance_color (st : State) : string :=
  if Num.ltb (balance st) Num.zero then "red" else "green".

(** The three inputs of the form, as rendered from the state. *)
Record Input : Type := mkInput {
  input_type : string;
  value : string;
  placeholder : string;
  required : bool
}.

Definition form_inputs (st : State) : list Input :=
  [ {| input_type := "text"; value := name st;
       placeholder := "20000 mobile"; required := true |};
    {| input_type := "datetime-local"; value := dateTime st;
       placeholder := ""; required := true |};
    {| input_type := "text"; value := description st;
       placeholder := "description"; required := true |} ].

(** The browser's constraint validation of a form control: a required
    control whose value is empty suffers from a missing value. *)
Definition value_missing (i : Input) : bool :=
  required i && String.eqb (value i) "".

Definition check_validity (inputs : list Input) : bool :=
  forallb (fun i => negb (value_missing i)) inputs.

(** Pressing the submit button: the browser validates the form and fires
    the [submit] event, hence [onSubmit], only when every control is
    valid. *)
Definition press_submit (st : State) : State * list Effect :=
  if check_validity (form_inputs st) then addNewTransaction st
  else (st, []).

End WithEnv.

End Client.

(** ** The API service: api/index.js *)

Module Server.

(** The outcome of awaiting a store call: the promise resolves or rejects. *)
Inductive Result (E A : Type) : Type :=
| Ok (a : A)
| Err (e : E).
Arguments Ok {E A} a.
Arguments Err {E A} e.

(** The object literal handed to [Transaction.create]. *)
Record NewDoc : Type := mkNewDoc {
  name : JSVal;
  description : JSVal;
  dateTime : JSVal;
  price : JSVal
}.

(** Express's [res]: the status code starts at 200 and [json] sends the
    body. *)
Record Res : Type := mkRes {
  statusCode : nat;
  sent : option JSVal
}.

Definition res0 : Res := {| statusCode := 200; sent := None |}.

Definition status (code : nat) (res : Res) : Res :=
  {| statusCode := code; sent := sent res |}.

Definition json (v : JSVal) (res : Res) : Res :=
  {| statusCode := statusCode res; sent := Some v |}.

Definition send (v : JSVal) (res : Res) : Res := json v res.

(** What a route leaves behind: the response, the store, and what went to
    [console.error]. *)
Record Out (S E : Type) : Type := mkOut {
  response : Res;
  store : S;
  logged : list (string * E)
}.
Arguments mkOut {S E} response store logged.
Arguments response {S E} o.
Arguments store {S E} o.
Arguments logged {S E} o.

(** [req.body.key] through destructuring: a missing key is [undefined]. *)
Definition field (key : string) (body : gmap string JSVal) : JSVal :=
  match body !! key with
  | Some v => v
  | None => JUndefined
  end.

Section Routes.

(** The Mongoose model [Transaction]: its state, the errors its promises
    reject with, and its two calls.  Documents come back as the JSON value
    [res.json] serialises them to. *)
Variables (S E : Type).
Variable find : S -> Result E (list JSVal).
Variable create : NewDoc -> S -> Result E JSVal * S.

(** [app.get("/api/test", ...)] *)
Definition get_test (st : S) : Out S E :=
  mkOut
    (send (json_object
             [("body", JStr "testing successful , I'am SPIDER-MAN")]) res0)
    st [].

(** [app.get("/api/transaction", ...)] *)
Definition get_transaction (st : S) : Out S E :=
  match find st with
  | Ok transactions => mkOut (json (JArr transactions) res0) st []
  | Err err =>
      mkOut
        (json (json_object [("error", JStr "Failed to fetch transactions")])
              (status 500 res0))
        st [("❌ Error fetching transactions:", err)]
  end.

(** The document built from the destructured request body. *)
Definition new_doc (body : gmap string JSVal) : NewDoc :=
  let name := field "name" body in
  let description := field "description" body in
  let dateTime := field "dateTime" body in
  let price := field "price" body in
  {| name := name; description := description;
     dateTime := dateTime; price := price |}.

(** [app.post("/api/transaction", ...)] *)
Definition post_transaction (body : gmap string JSVal) (st : S) : Out S E :=
  match create (new_doc body) st with
  | (Ok transaction, st') => mkOut (json transaction res0) st' []
  | (Err err, st') =>
      mkOut
        (json (json_object [("error", JStr "Failed to create transaction")])
              (status 500 res0))
        st' [("❌ Error creating transaction:", err)]
  end.

End Routes.

End Server.

(** ** The document store *)

Module MemStore.

(** Modelled from the spec: the Mongoose model [Transaction]
    (models/Transaction) and the collection behind it.  One flat collection
    of documents kept in insertion order; [create] stores the four fields as
    given and assigns a fresh identifier; [find] returns the whole
    collection; a call fails when the store is unreachable. *)
Record t : Type := mk {
  docs : list JSVal;
  next_id : nat;
  reachable : bool
}.

Definition empty : t := {| docs := []; next_id := 0; reachable := true |}.

(** Modelled from the spec: a stored document is its identifier and the
    four fields as given; a field that is [undefined] is not stored. *)
Definition document (id : nat) (d : Server.NewDoc) : JSVal :=
  json_object
    [("_id", JNum (Z.of_nat id));
     ("name", Server.name d);
     ("description", Server.description d);
     ("dateTime", Server.dateTime d);
     ("price", Server.price d)].

(** Modelled from the spec: [Transaction.find()] returns the full
    collection in the store's natural order, or fails. *)
Definition find (st : t) : Server.Result string (list JSVal) :=
  if reachable st then Server.Ok (docs st)
  else Server.Err "store unreachable".

(** Modelled from the spec: [Transaction.create(doc)] stores one document
    with a store-assigned identifier and returns it, or fails and stores
    nothing. *)
Definition create (d : Server.NewDoc) (st : t)
  : Server.Result string JSVal * t :=
  if reachable st then
    let doc := document (next_id st) d in
    (Server.Ok doc,
     {| docs := docs st ++ [doc]; next_id := Datatypes.S (next_id st);
        reachable := reachable st |})
  else (Server.Err "store unreachable", st).


Definition get_transaction : t -> Server.Out t string :=
  Server.get_transaction t string find.

Definition post_transaction : gmap string JSVal -> t -> Server.Out t string :=
  Server.post_transaction t string create.




End MemStore.

(** ** Specification-side notions

    What the statements below compare the code with.  None of these is used
    by the embedding above. *)

Module Spec.

(** The text before the first space character (all of it if there is none). *)
Fixpoint before_space (s : string) : string :=
  match s with
  | EmptyString => EmptyString
  | String c rest =>
      if Ascii.eqb c space then EmptyString else String c (before_space rest)
  end.

(** The text after the first space character (empty if there is none). *)
Fixpoint after_space (s : string) : string :=
  match s with
  | EmptyString => EmptyString
  | String c rest => if Ascii.eqb c space then rest else after_space rest
  end.

(** White space: space, tab, line feed, vertical tab, form feed, carriage
    return. *)
Definition is_whitespace (c : ascii) : bool :=
  let n := nat_of_ascii c in
  Nat.eqb n 32 || (Nat.leb 9 n && Nat.leb n 13).

(** The leading whitespace-delimited token. *)
Fixpoint leading_token (s : string) : string :=
  match s with
  | EmptyString => EmptyString
  | String c rest =>
      if is_whitespace c then EmptyString else String c (leading_token rest)
  end.

Definition digit_value (c : ascii) : option Z :=
  let n := nat_of_ascii c in
  if Nat.leb 48 n && Nat.leb n 57 then Some (Z.of_nat (n - 48)) else None.

Fixpoint digits_value (acc : Z) (s : string) : option Z :=
  match s with
  | EmptyString => Some acc
  | String c rest =>
      match digit_value c with
      | Some d => digits_value (10 * acc + d) rest
      | None => None
      end
  end.

(** The value of a signed decimal integer literal: an optional sign and at
    least one digit.  These are the integer literals among the numeric
    literals; the inputs examined below need no others. *)
Definition integer_literal_value (s : string) : option Z :=
  match s with
  | EmptyString => None
  | String c rest =>
      if Ascii.eqb c "-"%char then
        match rest with
        | EmptyString => None
        | _ => option_map Z.opp (digits_value 0 rest)
        end
      else if Ascii.eqb c "+"%char then
        match rest with
        | EmptyString => None
        | _ => digits_value 0 rest
        end
      else digits_value 0 s
  end.

(** The rational number a finite binary64 number stands for; infinities and
    [NaN] stand for none. *)
Definition value (x : spec_float) : option Q :=
  match x with
  | S754_zero _ => Some 0%Q
  | S754_finite s m e =>
      Some ((if s then -1 else 1) * (Zpos m # 1) * 2 ^ e)%Q
  | _ => None
  end.



(** A number below zero, finite with an exponent the format allows, or
    minus infinity. *)
Definition negative_in_range (x : spec_float) : Prop :=
  match x with
  | S754_infinity true => True
  | S754_finite true _ e => (emin Num.prec Num.emax <= e)%Z
  | _ => False
  end.


(** The split as the specification words it, on the inputs whose leading
    whitespace-delimited token is an integer literal, which is a valid
    numeric literal: the posted price is the numeric value of the token and
    the posted name is the remainder after the first space. *)
Definition numeric_price_posted (api : string) (st : Client.State) : Prop :=
  forall v : Z,
    integer_literal_value (leading_token (Client.name st)) = Some v ->
    exists body,
      Client.posted api st = [body] /\
      prop "price" body = JNum v /\
      prop "name" body = JStr (after_space (Client.name st)).

Definition tab : ascii := "009"%char.

(** A value of [REACT_APP_API_URL] for the examples. *)
Definition sample_api : string := "http://localhost:3001/api".

(** The request body of the round-trip scenario. *)
Definition sample_body : gmap string JSVal :=
  {[ "name" := JStr "mobile"; "description" := JStr "d";
     "dateTime" := JStr "2025-09-07T10:30"; "price" := JNum 20000 ]}.

End Spec.

(** ** The list view of App *)

Module View.

(** One rendered transaction: the [key], the texts of the name, description
    and datetime cells, the class of the price cell and the number shown in
    it. *)
Record Row : Type := mkRow {
  key : string;
  name : string;
  description : string;
  price_class : string;
  price : spec_float;
  datetime : string
}.

Section WithLocale.

(** [new Date(s).toLocaleString()], which depends on the browser's locale
    and time zone. *)
Variable toLocaleString : string -> string.

(** The body of [transactions.map(...)]. *)
Definition render_transaction (transaction : Txn.t) : Row :=
  {| key := Txn._id transaction;
     name := Txn.name transaction;
     description := Txn.description transaction;
     price_class :=
       "price " ++ (if Num.ltb (Txn.price transaction) Num.zero
                    then "red" else "green");
     price := Txn.price transaction;
     datetime :=
       if String.eqb (Txn.dateTime transaction) "" then "No date"
       else toLocaleString (Txn.dateTime transaction) |}.

(** [transactions.length > 0 && transactions.map(...)]: nothing is rendered
    for an empty list. *)
Definition render_transactions (st : Client.State) : list Row :=
  if Nat.ltb 0 (List.length (Client.transactions st))
  then List.map render_transaction (Client.transactions st)
  else [].

End WithLocale.

End View.

(** ** App as a machine driven by events *)

Module App.

(** What can happen to the mounted component: the effect hook runs, the list
    request resolves, the user edits a field or presses the submit button,
    the response to a POST arrives. *)
Inductive Event : Type :=
| Mounted
| Loaded (transactions : list Txn.t)
| ChangeName (v : string)
| ChangeDateTime (v : string)
| ChangeDescription (v : string)
| Submit
| Responded (parsed : option JSVal).

Definition is_loaded (ev : Event) : bool :=
  match ev with Loaded _ => true | _ => false end.

Definition is_mounted (ev : Event) : bool :=
  match ev with Mounted => true | _ => false end.

Section WithEnv.

Variable REACT_APP_API_URL : string.

Definition step (st : Client.State) (ev : Event)
  : Client.State * list Client.Effect :=
  match ev with
  | Mounted => Client.mount REACT_APP_API_URL st
  | Loaded transactions => Client.load_complete transactions st
  | ChangeName v => (Client.setName v st, [])
  | ChangeDateTime v => (Client.setDateTime v st, [])
  | ChangeDescription v => (Client.setDescription v st, [])
  | Submit => Client.press_submit REACT_APP_API_URL st
  | Responded parsed => Client.on_post_response parsed st
  end.

(** The events in order; the effects pile up in the order they are issued. *)
Fixpoint run (st : Client.State) (evs : list Event)
  : Client.State * list Client.Effect :=
  match evs with
  | [] => (st, [])
  | ev :: rest =>
      let (st1, effects1) := step st ev in
      let (st2, effects2) := run st1 rest in
      (st2, (effects1 ++ effects2)%list)
  end.

End WithEnv.

(** The GET requests among the effects. *)
Definition is_get (e : Client.Effect) : bool :=
  match e with
  | Client.Fetch method _ _ _ => String.eqb method "GET"
  | _ => false
  end.

End App.

(** ** From the client's request to the route *)

Module Wire.

(** [express.json()] on the body of a request: an object becomes
    [req.body], where a repeated key keeps its last value; an array has none
    of the keys a route reads; any other value is refused before the route
    runs. *)
Definition parse_body (v : JSVal) : option (gmap string JSVal) :=
  match v with
  | JObj fields =>
      Some (fold_left (fun m kv => <[fst kv := snd kv]> m) fields ∅)
  | JArr _ => Some ∅
  | _ => None
  end.

End Wire.

(** * Properties *)

(** ** The split of the combined name field *)

Section SplitFacts.

Lemma split_nonempty (sep : ascii) (s : string) : Str.split sep s <> [].
Proof.
  destruct s as [|c rest]; simpl; [discriminate|].
  destruct (Ascii.eqb c sep); [discriminate|].
  destruct (Str.split sep rest); discriminate.
Qed.

Lemma first_split_before_space (s : string) :
  Str.first (Str.split space s) = Some (Spec.before_space s).
Proof.
  unfold Str.first.
  induction s as [|c rest IH]; simpl; [reflexivity|].
  destruct (Ascii.eqb c space); [reflexivity|].
  destruct (Str.split space rest) as [|piece pieces]; simpl in *.
  - discriminate IH.
  - injection IH as ->. reflexivity.
Qed.

Lemma substring_after_space (s : string) :
  Str.substring (String.length (Spec.before_space s) + 1) s
  = Spec.after_space s.
Proof.
  induction s as [|c rest IH]; simpl; [reflexivity|].
  destruct (Ascii.eqb c space); simpl; [reflexivity|exact IH].
Qed.

Lemma no_space_before (s : string) :
  Str.mem space s = false -> Spec.before_space s = s.
Proof.
  induction s as [|c rest IH]; simpl; [reflexivity|].
  destruct (Ascii.eqb c space); simpl; [discriminate|].
  intros H. rewrite IH by exact H. reflexivity.
Qed.

Lemma no_space_after (s : string) :
  Str.mem space s = false -> Spec.after_space s = "".
Proof.
  induction s as [|c rest IH]; simpl; [reflexivity|].
  destruct (Ascii.eqb c space); simpl; [discriminate|exact IH].
Qed.

Lemma space_rejoin (s : string) :
  Str.mem space s = true ->
  Spec.before_space s ++ String space (Spec.after_space s) = s.
Proof.
  induction s as [|c rest IH]; simpl; [discriminate|].
  destruct (Ascii.eqb_spec c space) as [->|Hne]; simpl.
  - reflexivity.
  - intros H.
    change (String c (Spec.before_space rest
                      ++ String space (Spec.after_space rest))
            = String c rest).
    f_equal. exact (IH H).
Qed.

Lemma before_space_has_no_space (s : string) :
  Str.mem space (Spec.before_space s) = false.
Proof.
  induction s as [|c rest IH]; simpl; [reflexivity|].
  destruct (Ascii.eqb c space) eqn:Hc; simpl; [reflexivity|].
  rewrite Hc. exact IH.
Qed.

Lemma price_token_before_space (st : Client.State) :
  Client.price_token st = Spec.before_space (Client.name st).
Proof.
  unfold Client.price_token. rewrite first_split_before_space. reflexivity.
Qed.

Lemma payload_fields (st : Client.State) :
  Client.payload st =
  JObj [("price", JStr (Spec.before_space (Client.name st)));
        ("name", JStr (Spec.after_space (Client.name st)));
        ("description", JStr (Client.description st));
        ("dateTime", JStr (Client.dateTime st))].
Proof.
  unfold Client.payload. rewrite price_token_before_space.
  rewrite substring_after_space. reflexivity.
Qed.

End SplitFacts.

(** ** The client *)

Section ClientFacts.

Variable api : string.

Lemma posted_payload (st : Client.State) :
  Client.posted api st = [Client.payload st].
Proof. reflexivity. Qed.

(** C1, as the specification words it, fails.  For the input
    ["20000 mobile"] the leading token is the literal 20000, yet the posted
    price is the string ["20000"], not the number.  For an input whose first
    white space is a tab, the posted price is not even the leading token:
    the code splits on the space character only. *)
Lemma numeric_price_posted_fails :
  ~ Spec.numeric_price_posted Spec.sample_api
      (Client.mkState "20000 mobile" "d" "2025-09-07T10:30" [])
  /\ ~ Spec.numeric_price_posted Spec.sample_api
         (Client.mkState ("20" ++ String Spec.tab "cab fare")
                         "d" "2025-09-07T10:30" []).
Proof.
  split; intros H.
  - destruct (H 20000%Z eq_refl) as (body & Hb & Hp & _).
    vm_compute in Hb. injection Hb as <-. vm_compute in Hp. discriminate Hp.
  - destruct (H 20%Z eq_refl) as (body & Hb & Hp & _).
    vm_compute in Hb. injection Hb as <-. vm_compute in Hp. discriminate Hp.
Qed.

Example tab_separated_price :
  prop "price"
       (Client.payload
          (Client.mkState ("20" ++ String Spec.tab "cab fare") "d" "t" []))
  = JStr ("20" ++ String Spec.tab "cab").
Proof. reflexivity. Qed.

(** C1 (amended): one submit posts exactly one body.  Its price field is
    the text of the input before the first space character, sent as a string
    and not as a number; its name field is the remainder of the input after
    that space.  The two are pinned by the input alone: the price has no
    space, and the input is the price, one space and the name, or, when the
    input has no space, the price alone. *)
Theorem posted_price_is_token_text (st : Client.State) :
  exists tok label : string,
    Client.posted api st = [Client.payload st] /\
    prop "price" (Client.payload st) = JStr tok /\
    prop "name" (Client.payload st) = JStr label /\
    tok = Spec.before_space (Client.name st) /\
    label = Spec.after_space (Client.name st) /\
    Str.mem space tok = false /\
    (Client.name st = tok ++ " " ++ label
     \/ Client.name st = tok /\ label = "").
Proof.
  exists (Spec.before_space (Client.name st)),
         (Spec.after_space (Client.name st)).
  rewrite posted_payload, payload_fields.
  repeat split.
  - apply before_space_has_no_space.
  - destruct (Str.mem space (Client.name st)) eqn:Hsp.
    + left. symmetry. exact (space_rejoin _ Hsp).
    + right. rewrite (no_space_before _ Hsp), (no_space_after _ Hsp).
      split; reflexivity.
Qed.

(** C7: when the combined input has no space, the whole input is the posted
    price token and the posted name is the empty string. *)
Theorem no_space_whole_input_is_price (st : Client.State) :
  Str.mem space (Client.name st) = false ->
  Client.posted api st = [Client.payload st] /\
  prop "price" (Client.payload st) = JStr (Client.name st) /\
  prop "name" (Client.payload st) = JStr "".
Proof.
  intros H. rewrite posted_payload, payload_fields.
  rewrite (no_space_before _ H), (no_space_after _ H).
  repeat split.
Qed.

(** C10: when the combined input has a space, the posted price token, one
    space and the posted name put the input back together. *)
Theorem split_loses_nothing (st : Client.State) :
  Str.mem space (Client.name st) = true ->
  exists price name : string,
    Client.posted api st = [Client.payload st] /\
    prop "price" (Client.payload st) = JStr price /\
    prop "name" (Client.payload st) = JStr name /\
    price ++ " " ++ name = Client.name st.
Proof.
  intros H.
  exists (Spec.before_space (Client.name st)),
         (Spec.after_space (Client.name st)).
  rewrite posted_payload, payload_fields. repeat split.
  exact (space_rejoin _ H).
Qed.





(** C6: when the response to the POST has arrived, the three editable fields
    are the empty string, the list of transactions is the one from before,
    and no request is issued. *)
Theorem submit_complete_clears_the_form (json : JSVal) (st : Client.State) :
  fst (Client.on_post_response (Some json) st)
  = {| Client.name := ""; Client.description := ""; Client.dateTime := "";
       Client.transactions := Client.transactions st |} /\
  existsb Client.is_fetch (snd (Client.on_post_response (Some json) st))
  = false.
Proof. split; reflexivity. Qed.

(** C8: with an empty description or an empty date, pressing submit changes
    nothing and issues no request. *)
Theorem empty_required_field_blocks_submit (st : Client.State) :
  Client.description st = "" \/ Client.dateTime st = "" ->
  Client.press_submit api st = (st, []).
Proof.
  intros H. unfold Client.press_submit, Client.check_validity,
    Client.form_inputs, Client.value_missing. simpl.
  destruct H as [-> | ->]; simpl.
  - rewrite !andb_false_r. reflexivity.
  - rewrite andb_false_r. reflexivity.
Qed.

End ClientFacts.

Lemma posted_price_is_token_text_witness :
  exists tok label : string,
    Client.posted Spec.sample_api
      (Client.mkState "12.50 lunch at work" "d" "2025-09-07T10:30" [])
    = [JObj [("price", JStr "12.50"); ("name", JStr "lunch at work");
             ("description", JStr "d");
             ("dateTime", JStr "2025-09-07T10:30")]] /\
    JStr "12.50" = JStr tok /\
    JStr "lunch at work" = JStr label /\
    tok = "12.50" /\
    label = "lunch at work" /\
    Str.mem space tok = false /\
    ("12.50 lunch at work" = tok ++ " " ++ label
     \/ "12.50 lunch at work" = tok /\ label = "").
Proof.
  apply (posted_price_is_token_text Spec.sample_api
           (Client.mkState "12.50 lunch at work" "d" "2025-09-07T10:30" [])).
Defined.


Lemma no_space_whole_input_is_price_witness :
  Str.mem space "-200" = false /\
  Client.posted Spec.sample_api (Client.mkState "-200" "d" "2025-09-07T10:30" [])
  = [JObj [("price", JStr "-200"); ("name", JStr "");
           ("description", JStr "d"); ("dateTime", JStr "2025-09-07T10:30")]].
Proof.
  split; [reflexivity|].
  apply (no_space_whole_input_is_price Spec.sample_api
           (Client.mkState "-200" "d" "2025-09-07T10:30" [])).
  reflexivity.
Defined.

Lemma split_loses_nothing_witness :
  Str.mem space "20000 mobile phone" = true /\
  exists price name : string,
    Client.posted Spec.sample_api
      (Client.mkState "20000 mobile phone" "d" "2025-09-07T10:30" [])
    = [JObj [("price", JStr "20000"); ("name", JStr "mobile phone");
             ("description", JStr "d");
             ("dateTime", JStr "2025-09-07T10:30")]] /\
    JStr "20000" = JStr price /\
    JStr "mobile phone" = JStr name /\
    price ++ " " ++ name = "20000 mobile phone".
Proof.
  split; [reflexivity|].
  apply (split_loses_nothing Spec.sample_api
           (Client.mkState "20000 mobile phone" "d" "2025-09-07T10:30" [])).
  reflexivity.
Defined.

Lemma empty_required_field_blocks_submit_witness :
  Client.press_submit Spec.sample_api (Client.mkState "20000 mobile" "" "" [])
  = (Client.mkState "20000 mobile" "" "" [], []).
Proof.
  apply (empty_required_field_blocks_submit Spec.sample_api
           (Client.mkState "20000 mobile" "" "" [])).
  left. reflexivity.
Defined.

(** ** The routes, for any store *)

Section RouteFacts.

Variables (S E : Type).
Variable find : S -> Server.Result E (list JSVal).
Variable create : Server.NewDoc -> S -> Server.Result E JSVal * S.

Local Abbreviation get_transaction := (Server.get_transaction S E find).
Local Abbreviation post_transaction := (Server.post_transaction S E create).

(** C4: the list route answers in one of two ways.  When the store call
    succeeds it sends, with status 200, the array of exactly the documents
    the store returned, in the store's order; when it fails it sends status
    500 with the body [{error: "Failed to fetch transactions"}].  The store
    is left as it was. *)
Theorem get_transaction_responses (st : S) :
  Server.store (get_transaction st) = st /\
  match find st with
  | Server.Ok transactions =>
      Server.response (get_transaction st)
      = {| Server.statusCode := 200;
           Server.sent := Some (JArr transactions) |}
  | Server.Err _ =>
      Server.response (get_transaction st)
      = {| Server.statusCode := 500;
           Server.sent :=
             Some (JObj [("error", JStr "Failed to fetch transactions")]) |}
  end.
Proof.
  unfold Server.get_transaction.
  destruct (find st); split; reflexivity.
Qed.

(** What the route reads under [key] in a request body, said with the
    lookup of the map alone: the value bound to the key, [undefined] when
    there is none. *)
Local Abbreviation read key body := (default JUndefined (body !! key)).

(** C5: for every request body the create route hands the store a document
    whose four fields are the values the body binds to [name],
    [description], [dateTime] and [price], as they are ([undefined] for a
    key the body lacks); nothing is checked or refused.  When the store call
    succeeds the route sends the created record with status 200; when it
    fails it sends status 500 with the body
    [{error: "Failed to create transaction"}]. *)
Theorem post_transaction_responses (body : gmap string JSVal) (st : S) :
  let doc := {| Server.name := read "name" body;
                Server.description := read "description" body;
                Server.dateTime := read "dateTime" body;
                Server.price := read "price" body |} in
  Server.store (post_transaction body st) = snd (create doc st) /\
  match fst (create doc st) with
  | Server.Ok transaction =>
      Server.response (post_transaction body st)
      = {| Server.statusCode := 200; Server.sent := Some transaction |}
  | Server.Err _ =>
      Server.response (post_transaction body st)
      = {| Server.statusCode := 500;
           Server.sent :=
             Some (JObj [("error", JStr "Failed to create transaction")]) |}
  end.
Proof.
  intros doc. unfold Server.post_transaction.
  assert (Hdoc : Server.new_doc body = doc).
  { unfold Server.new_doc, Server.field, doc.
    destruct (body !! "name"), (body !! "description"),
      (body !! "dateTime"), (body !! "price"); reflexivity. }
  rewrite Hdoc.
  destruct (create doc st) as [[transaction | err] st']; split; reflexivity.
Qed.

(** C9: the document handed to the store is built from the four fields
    [name], [description], [dateTime] and [price] of the request body and
    from nothing else.  It holds the values the body binds to these four
    keys; the store is called with it; and two request bodies that agree on
    the four keys give the same document, the same response and the same
    store, whatever else they contain. *)
Theorem post_transaction_ignores_other_keys
        (body1 body2 : gmap string JSVal) (st : S) :
  body1 !! "name" = body2 !! "name" ->
  body1 !! "description" = body2 !! "description" ->
  body1 !! "dateTime" = body2 !! "dateTime" ->
  body1 !! "price" = body2 !! "price" ->
  let doc := {| Server.name := read "name" body1;
                Server.description := read "description" body1;
                Server.dateTime := read "dateTime" body1;
                Server.price := read "price" body1 |} in
  Server.new_doc body1 = doc /\
  Server.new_doc body2 = doc /\
  Server.store (post_transaction body2 st) = snd (create doc st) /\
  post_transaction body1 st = post_transaction body2 st.
Proof.
  intros Hn Hd Ht Hp doc.
  assert (Hdoc1 : Server.new_doc body1 = doc).
  { unfold Server.new_doc, Server.field, doc.
    destruct (body1 !! "name"), (body1 !! "description"),
      (body1 !! "dateTime"), (body1 !! "price"); reflexivity. }
  assert (Hdoc2 : Server.new_doc body2 = doc).
  { rewrite <- Hdoc1. unfold Server.new_doc, Server.field.
    rewrite Hn, Hd, Ht, Hp. reflexivity. }
  repeat split; try assumption.
  - unfold Server.post_transaction. rewrite Hdoc2.
    destruct (create doc st) as [[transaction | err] st']; reflexivity.
  - unfold Server.post_transaction. rewrite Hdoc1, Hdoc2. reflexivity.
Qed.

Lemma new_doc_insert_other (k : string) (v : JSVal)
      (body : gmap string JSVal) :
  k <> "name" -> k <> "description" -> k <> "dateTime" -> k <> "price" ->
  Server.new_doc (<[k := v]> body) = Server.new_doc body.
Proof.
  intros Hn Hd Ht Hp. unfold Server.new_doc, Server.field.
  rewrite !lookup_insert_ne by assumption. reflexivity.
Qed.

End RouteFacts.

(** ** Create, then list *)

Section StoreFacts.









(** On the modelled store the list route sends the whole collection. *)
Lemma memstore_lists_all (st : MemStore.t) :
  MemStore.reachable st = true ->
  Server.response (MemStore.get_transaction st)
  = {| Server.statusCode := 200;
       Server.sent := Some (JArr (MemStore.docs st)) |}.
Proof.
  intros Hup. unfold MemStore.get_transaction, Server.get_transaction,
    MemStore.find. rewrite Hup. reflexivity.
Qed.

End StoreFacts.


Lemma post_transaction_ignores_other_keys_witness :
  let doc := {| Server.name := JStr "mobile";
                Server.description := JStr "d";
                Server.dateTime := JStr "2025-09-07T10:30";
                Server.price := JNum 20000 |} in
  Server.new_doc (<["admin" := JBool true]> Spec.sample_body) = doc /\
  Server.new_doc Spec.sample_body = doc /\
  Server.store (MemStore.post_transaction Spec.sample_body MemStore.empty)
  = {| MemStore.docs :=
         [JObj [("_id", JNum 0); ("name", JStr "mobile");
                ("description", JStr "d");
                ("dateTime", JStr "2025-09-07T10:30");
                ("price", JNum 20000)]];
       MemStore.next_id := 1;
       MemStore.reachable := true |} /\
  MemStore.post_transaction (<["admin" := JBool true]> Spec.sample_body)
                            MemStore.empty
  = MemStore.post_transaction Spec.sample_body MemStore.empty.
Proof.
  pose proof (post_transaction_ignores_other_keys
                MemStore.t string MemStore.create
                (<["admin" := JBool true]> Spec.sample_body) Spec.sample_body
                MemStore.empty) as H.
  assert (Hn : <["admin" := JBool true]> Spec.sample_body !! "name"
               = Spec.sample_body !! "name") by (vm_compute; reflexivity).
  assert (Hd : <["admin" := JBool true]> Spec.sample_body !! "description"
               = Spec.sample_body !! "description")
    by (vm_compute; reflexivity).
  assert (Ht : <["admin" := JBool true]> Spec.sample_body !! "dateTime"
               = Spec.sample_body !! "dateTime") by (vm_compute; reflexivity).
  assert (Hp : <["admin" := JBool true]> Spec.sample_body !! "price"
               = Spec.sample_body !! "price") by (vm_compute; reflexivity).
  specialize (H Hn Hd Ht Hp).
  vm_compute in H. vm_compute. exact H.
Defined.

(** ** More about the split *)

Section MoreSplitFacts.

Variable api : string.

Lemma before_space_no_space (s : string) :
  Str.mem space (Spec.before_space s) = false.
Proof.
  induction s as [|c rest IH]; simpl; [reflexivity|].
  destruct (Ascii.eqb c space) eqn:Hc; simpl; [reflexivity|].
  rewrite Hc. exact IH.
Qed.

Lemma before_space_app (tok label : string) :
  Str.mem space tok = false ->
  Spec.before_space (tok ++ String space label) = tok.
Proof.
  induction tok as [|c rest IH]; simpl.
  - intros _. reflexivity.
  - destruct (Ascii.eqb c space); simpl; [discriminate|].
    intros H. f_equal. exact (IH H).
Qed.

Lemma after_space_app (tok label : string) :
  Str.mem space tok = false ->
  Spec.after_space (tok ++ String space label) = label.
Proof.
  induction tok as [|c rest IH]; simpl.
  - intros _. reflexivity.
  - destruct (Ascii.eqb c space); simpl; [discriminate|exact IH].
Qed.

(** X1: the price field of a posted body never contains a space, whatever
    was typed. *)
Theorem posted_price_has_no_space (st : Client.State) :
  exists tok : string,
    Client.posted api st = [Client.payload st] /\
    prop "price" (Client.payload st) = JStr tok /\
    Str.mem space tok = false.
Proof.
  exists (Spec.before_space (Client.name st)).
  rewrite posted_payload, payload_fields. repeat split.
  apply before_space_no_space.
Qed.

(** X2: when the user types a token without a space, one space and a label,
    the posted price is the token and the posted name is the label, spaces
    inside the label included; an empty token gives an empty price. *)
Theorem token_and_label_are_recovered (tok label : string) (st : Client.State) :
  Str.mem space tok = false ->
  Client.name st = tok ++ " " ++ label ->
  prop "price" (Client.payload st) = JStr tok /\
  prop "name" (Client.payload st) = JStr label.
Proof.
  intros Htok Hname. rewrite payload_fields, Hname.
  change (tok ++ " " ++ label) with (tok ++ String space label).
  rewrite (before_space_app _ _ Htok), (after_space_app _ _ Htok).
  split; reflexivity.
Qed.

(** X3: pressing submit leaves the state as it is, and it posts -- one body,
    the payload of the current fields -- exactly when none of the three
    fields is empty. *)
Theorem submit_posts_iff_all_filled (st : Client.State) :
  fst (Client.press_submit api st) = st /\
  (Client.posted_bodies (snd (Client.press_submit api st))
   = [Client.payload st]
   <-> Client.name st <> "" /\ Client.dateTime st <> ""
       /\ Client.description st <> "").
Proof.
  unfold Client.press_submit, Client.check_validity, Client.form_inputs,
    Client.value_missing. simpl.
  destruct (String.eqb_spec (Client.name st) "") as [Hn|Hn];
    destruct (String.eqb_spec (Client.dateTime st) "") as [Ht|Ht];
    destruct (String.eqb_spec (Client.description st) "") as [Hd|Hd];
    simpl; (split; [reflexivity|]);
    (split; [intros H; try discriminate H; auto | intros (H1 & H2 & H3)]);
    try reflexivity; contradiction.
Qed.

End MoreSplitFacts.

Lemma token_and_label_are_recovered_witness :
  prop "price"
       (Client.payload (Client.mkState " rent for may" "d" "2025-09-07T10:30" []))
  = JStr "" /\
  prop "name"
       (Client.payload (Client.mkState " rent for may" "d" "2025-09-07T10:30" []))
  = JStr "rent for may".
Proof.
  apply (token_and_label_are_recovered "" "rent for may"
           (Client.mkState " rent for may" "d" "2025-09-07T10:30" []));
    reflexivity.
Defined.

(** ** Runs of the component *)

Section RunFacts.

Variable api : string.

Lemma run_app (evs1 evs2 : list App.Event) (st : Client.State) :
  App.run api st (evs1 ++ evs2)
  = (fst (App.run api (fst (App.run api st evs1)) evs2),
     (snd (App.run api st evs1)
      ++ snd (App.run api (fst (App.run api st evs1)) evs2))%list).
Proof.
  revert st. induction evs1 as [|ev rest IH]; intros st; simpl.
  - destruct (App.run api st evs2); reflexivity.
  - destruct (App.step api st ev) as [st1 effects1].
    rewrite IH.
    destruct (App.run api st1 rest) as [st2 effects2]. simpl.
    rewrite <- app_assoc. reflexivity.
Qed.

Lemma posted_bodies_app (effects1 effects2 : list Client.Effect) :
  Client.posted_bodies (effects1 ++ effects2)
  = (Client.posted_bodies effects1 ++ Client.posted_bodies effects2)%list.
Proof. unfold Client.posted_bodies. apply flat_map_app. Qed.

Lemma press_submit_state (st : Client.State) :
  fst (Client.press_submit api st) = st.
Proof.
  unfold Client.press_submit.
  destruct (Client.check_validity (Client.form_inputs st)); reflexivity.
Qed.

Lemma step_keeps_transactions (st : Client.State) (ev : App.Event) :
  App.is_loaded ev = false ->
  Client.transactions (fst (App.step api st ev)) = Client.transactions st.
Proof.
  destruct ev as [ | ts | v | v | v | | parsed ]; simpl; intros H;
    try discriminate H; try reflexivity.
  - rewrite press_submit_state. reflexivity.
  - destruct parsed; reflexivity.
Qed.

(** X4: as long as no list request resolves, the list of transactions, and
    with it the balance, stays what it was: typing, submitting and the
    arrival of responses never change it. *)
Theorem list_changes_only_on_load (evs : list App.Event) (st : Client.State) :
  forallb (fun ev => negb (App.is_loaded ev)) evs = true ->
  Client.transactions (fst (App.run api st evs)) = Client.transactions st /\
  Client.balance (fst (App.run api st evs)) = Client.balance st.
Proof.
  intros H.
  assert (Ht : Client.transactions (fst (App.run api st evs))
               = Client.transactions st).
  { revert st. induction evs as [|ev rest IH]; intros st; simpl in *.
    - reflexivity.
    - apply andb_prop in H. destruct H as [Hev Hrest].
      apply negb_true_iff in Hev.
      pose proof (step_keeps_transactions st ev Hev) as Hstep.
      destruct (App.step api st ev) as [st1 effects1]. simpl in Hstep.
      specialize (IH Hrest st1).
      destruct (App.run api st1 rest) as [st2 effects2]. simpl in *.
      rewrite IH. exact Hstep. }
  split; [exact Ht|]. unfold Client.balance. rewrite Ht. reflexivity.
Qed.

Lemma step_gets (st : Client.State) (ev : App.Event) :
  List.length (List.filter App.is_get (snd (App.step api st ev)))
  = if App.is_mounted ev then 1 else 0.
Proof.
  destruct ev as [ | ts | v | v | v | | parsed ]; simpl; try reflexivity.
  - unfold Client.press_submit.
    destruct (Client.check_validity (Client.form_inputs st)); reflexivity.
  - destruct parsed; reflexivity.
Qed.

(** X5: the component issues one GET each time it mounts and none
    otherwise: no submit and no response triggers a re-fetch. *)
Theorem one_get_per_mount (evs : list App.Event) (st : Client.State) :
  List.length (List.filter App.is_get (snd (App.run api st evs)))
  = List.length (List.filter App.is_mounted evs).
Proof.
  revert st. induction evs as [|ev rest IH]; intros st; simpl.
  - reflexivity.
  - pose proof (step_gets st ev) as Hstep.
    destruct (App.step api st ev) as [st1 effects1]. simpl in Hstep.
    specialize (IH st1).
    destruct (App.run api st1 rest) as [st2 effects2]. simpl in *.
    rewrite List.filter_app, List.length_app, Hstep, IH.
    destruct (App.is_mounted ev); reflexivity.
Qed.

Lemma step_posted (st : Client.State) (ev : App.Event) (body : JSVal) :
  In body (Client.posted_bodies (snd (App.step api st ev))) ->
  exists st0 : Client.State,
    body = Client.payload st0 /\
    Client.check_validity (Client.form_inputs st0) = true.
Proof.
  destruct ev as [ | ts | v | v | v | | parsed ]; simpl; try contradiction.
  - unfold Client.press_submit.
    destruct (Client.check_validity (Client.form_inputs st)) eqn:Hv; simpl.
    + intros [Hb|Hf]; [subst body|contradiction].
      exists st. split; [reflexivity|exact Hv].
    + contradiction.
  - destruct parsed; simpl; contradiction.
Qed.

Lemma run_posted (evs : list App.Event) (st : Client.State) (body : JSVal) :
  In body (Client.posted_bodies (snd (App.run api st evs))) ->
  exists st0 : Client.State,
    body = Client.payload st0 /\
    Client.check_validity (Client.form_inputs st0) = true.
Proof.
  revert st. induction evs as [|ev rest IH]; intros st; simpl.
  - contradiction.
  - pose proof (step_posted st ev body) as Hstep.
    destruct (App.step api st ev) as [st1 effects1]. simpl in Hstep.
    specialize (IH st1).
    destruct (App.run api st1 rest) as [st2 effects2]. simpl in *.
    rewrite posted_bodies_app. intros Hin.
    apply in_app_or in Hin. destruct Hin as [Hin|Hin]; auto.
Qed.

(** X6: every body the component ever posts has the four keys price, name,
    description and dateTime, in this order, all of them strings; its
    description and dateTime are not empty and its price has no space. *)
Theorem posted_bodies_are_well_formed
        (evs : list App.Event) (st : Client.State) (body : JSVal) :
  In body (Client.posted_bodies (snd (App.run api st evs))) ->
  exists price name description dateTime : string,
    body = JObj [("price", JStr price); ("name", JStr name);
                 ("description", JStr description);
                 ("dateTime", JStr dateTime)] /\
    description <> "" /\ dateTime <> "" /\ Str.mem space price = false.
Proof.
  intros Hin. destruct (run_posted evs st body Hin) as (st0 & -> & Hv).
  exists (Spec.before_space (Client.name st0)),
         (Spec.after_space (Client.name st0)),
         (Client.description st0), (Client.dateTime st0).
  split; [apply payload_fields|].
  unfold Client.check_validity, Client.form_inputs, Client.value_missing in Hv.
  simpl in Hv.
  destruct (String.eqb_spec (Client.name st0) ""); simpl in Hv;
    [discriminate Hv|].
  destruct (String.eqb_spec (Client.dateTime st0) ""); simpl in Hv;
    [discriminate Hv|].
  destruct (String.eqb_spec (Client.description st0) ""); simpl in Hv;
    [discriminate Hv|].
  repeat split; try assumption. apply before_space_no_space.
Qed.

End RunFacts.

Section SubmitFacts.

Variable api : string.

Lemma filled_form_is_valid (st : Client.State) :
  Client.name st <> "" -> Client.dateTime st <> "" ->
  Client.description st <> "" ->
  Client.check_validity (Client.form_inputs st) = true.
Proof.
  intros Hn Ht Hd.
  unfold Client.check_validity, Client.form_inputs, Client.value_missing.
  simpl.
  destruct (String.eqb_spec (Client.name st) ""); [contradiction|].
  destruct (String.eqb_spec (Client.dateTime st) ""); [contradiction|].
  destruct (String.eqb_spec (Client.description st) ""); [contradiction|].
  reflexivity.
Qed.

(** X7: nothing holds a second submit back.  With the three fields filled,
    pressing submit [n] times before any response arrives posts the same
    body [n] times and leaves the fields as they are. *)
Theorem repeated_submit_posts_again (n : nat) (st : Client.State) :
  Client.name st <> "" -> Client.dateTime st <> "" ->
  Client.description st <> "" ->
  fst (App.run api st (repeat App.Submit n)) = st /\
  Client.posted_bodies (snd (App.run api st (repeat App.Submit n)))
  = repeat (Client.payload st) n.
Proof.
  intros Hn Ht Hd.
  pose proof (filled_form_is_valid st Hn Ht Hd) as Hv.
  induction n as [|n [IHst IHposted]]; simpl.
  - split; reflexivity.
  - unfold Client.press_submit. rewrite Hv. simpl.
    destruct (App.run api st (repeat App.Submit n)) as [st2 effects2].
    simpl in *. subst st2. rewrite IHposted. split; reflexivity.
Qed.

(** X8: whatever happened before, once a response with a JSON body has
    arrived the three fields are empty and the list is untouched; pressing
    submit right after it posts nothing more. *)
Theorem response_clears_whatever_came_before
        (evs : list App.Event) (json : JSVal) (st : Client.State) :
  fst (App.run api st (evs ++ [App.Responded (Some json)]))
  = {| Client.name := ""; Client.description := ""; Client.dateTime := "";
       Client.transactions :=
         Client.transactions (fst (App.run api st evs)) |} /\
  Client.posted_bodies
    (snd (App.run api st (evs ++ [App.Responded (Some json); App.Submit])))
  = Client.posted_bodies (snd (App.run api st evs)).
Proof.
  rewrite !run_app. simpl. split; [reflexivity|].
  rewrite posted_bodies_app. simpl. apply app_nil_r.
Qed.

End SubmitFacts.

Lemma list_changes_only_on_load_witness :
  Client.transactions
    (fst (App.run Spec.sample_api
            (Client.mkState "" "" "" [Txn.mk "1" "rent" "may" "" (Num.of_Z (-500))])
            [App.Mounted; App.ChangeName "20 tea"; App.ChangeDateTime "2025-09-07T10:30";
             App.ChangeDescription "d"; App.Submit;
             App.Responded (Some JNull)]))
  = [Txn.mk "1" "rent" "may" "" (Num.of_Z (-500))] /\
  Client.balance
    (fst (App.run Spec.sample_api
            (Client.mkState "" "" "" [Txn.mk "1" "rent" "may" "" (Num.of_Z (-500))])
            [App.Mounted; App.ChangeName "20 tea"; App.ChangeDateTime "2025-09-07T10:30";
             App.ChangeDescription "d"; App.Submit;
             App.Responded (Some JNull)]))
  = Num.of_Z (-500).
Proof.
  apply (list_changes_only_on_load Spec.sample_api
           [App.Mounted; App.ChangeName "20 tea"; App.ChangeDateTime "2025-09-07T10:30";
            App.ChangeDescription "d"; App.Submit;
            App.Responded (Some JNull)]
           (Client.mkState "" "" "" [Txn.mk "1" "rent" "may" "" (Num.of_Z (-500))])).
  reflexivity.
Defined.

Lemma posted_bodies_are_well_formed_witness :
  exists price name description dateTime : string,
    JObj [("price", JStr "20"); ("name", JStr "tea");
          ("description", JStr "d"); ("dateTime", JStr "2025-09-07T10:30")]
    = JObj [("price", JStr price); ("name", JStr name);
            ("description", JStr description);
            ("dateTime", JStr dateTime)] /\
    description <> "" /\ dateTime <> "" /\ Str.mem space price = false.
Proof.
  apply (posted_bodies_are_well_formed Spec.sample_api
           [App.ChangeName "20 tea"; App.ChangeDateTime "2025-09-07T10:30"; App.Submit;
            App.ChangeDescription "d"; App.Submit]
           Client.initial).
  simpl. left. reflexivity.
Defined.

Lemma repeated_submit_posts_again_witness :
  fst (App.run Spec.sample_api (Client.mkState "20 tea" "d" "2025-09-07T10:30" [])
         (repeat App.Submit 2))
  = Client.mkState "20 tea" "d" "2025-09-07T10:30" [] /\
  Client.posted_bodies
    (snd (App.run Spec.sample_api (Client.mkState "20 tea" "d" "2025-09-07T10:30" [])
            (repeat App.Submit 2)))
  = repeat (JObj [("price", JStr "20"); ("name", JStr "tea");
                  ("description", JStr "d"); ("dateTime", JStr "2025-09-07T10:30")]) 2.
Proof.
  apply (repeated_submit_posts_again Spec.sample_api 2
           (Client.mkState "20 tea" "d" "2025-09-07T10:30" []));
    simpl; discriminate.
Defined.

(** ** Rounding and the sign of a sum *)

Section RoundingFacts.

Lemma shr_1_m (mrs : shr_record) :
  (0 <= shr_m mrs)%Z ->
  shr_m (shr_1 mrs) = (shr_m mrs / 2)%Z.
Proof.
  destruct mrs as [m r s]. simpl. intros Hm.
  destruct m as [|p|p]; [reflexivity| |lia].
  destruct p as [p|p|]; simpl shr_m.
  - rewrite Pos2Z.inj_xI. apply (Z.div_unique _ _ _ 1); lia.
  - rewrite Pos2Z.inj_xO. apply (Z.div_unique _ _ _ 0); lia.
  - reflexivity.
Qed.

Lemma pow2_xO (n : positive) :
  (2 ^ Zpos n~0 = 2 ^ Zpos n * 2 ^ Zpos n)%Z.
Proof.
  rewrite <- Z.pow_add_r by lia. f_equal. lia.
Qed.

Lemma pow2_xI (n : positive) :
  (2 ^ Zpos n~1 = 2 * (2 ^ Zpos n * 2 ^ Zpos n))%Z.
Proof.
  rewrite <- Z.pow_add_r by lia. rewrite <- Z.pow_succ_r by lia.
  f_equal. lia.
Qed.

Lemma iter_shr_1_m (n : positive) (mrs : shr_record) :
  (0 <= shr_m mrs)%Z ->
  shr_m (SpecFloat.iter_pos shr_1 n mrs) = (shr_m mrs / 2 ^ Zpos n)%Z.
Proof.
  revert mrs. induction n as [n IH|n IH|]; intros mrs Hm;
    simpl SpecFloat.iter_pos.
  - assert (H1 : (0 <= shr_m (shr_1 mrs))%Z).
    { rewrite shr_1_m by exact Hm. apply Z.div_pos; lia. }
    assert (H2 : (0 <= shr_m (SpecFloat.iter_pos shr_1 n (shr_1 mrs)))%Z).
    { rewrite IH by exact H1. apply Z.div_pos; [exact H1|]. lia. }
    rewrite IH by exact H2. rewrite IH by exact H1.
    rewrite shr_1_m by exact Hm.
    rewrite !Z.div_div by lia. rewrite pow2_xI. f_equal; lia.
  - assert (H2 : (0 <= shr_m (SpecFloat.iter_pos shr_1 n mrs))%Z).
    { rewrite IH by exact Hm. apply Z.div_pos; [exact Hm|]. lia. }
    rewrite IH by exact H2. rewrite IH by exact Hm.
    rewrite Z.div_div by lia. rewrite pow2_xO. reflexivity.
  - rewrite shr_1_m by exact Hm. reflexivity.
Qed.

Lemma digits2_lower (m : positive) :
  (2 ^ (Zpos (digits2_pos m) - 1) <= Zpos m)%Z.
Proof.
  induction m as [m IH|m IH|]; simpl digits2_pos.
  - replace (Zpos (Pos.succ (digits2_pos m)) - 1)%Z
      with (Z.succ (Zpos (digits2_pos m) - 1))%Z by lia.
    rewrite Z.pow_succ_r by lia. lia.
  - replace (Zpos (Pos.succ (digits2_pos m)) - 1)%Z
      with (Z.succ (Zpos (digits2_pos m) - 1))%Z by lia.
    rewrite Z.pow_succ_r by lia. lia.
  - reflexivity.
Qed.

Lemma record_of_loc_m (m : Z) (l : location) :
  shr_m (shr_record_of_loc m l) = m.
Proof. destruct l as [|[| |]]; reflexivity. Qed.

Lemma shr_fexp_positive (p : positive) (e : Z) (l : location) :
  (emin Num.prec Num.emax <= e)%Z ->
  (0 < shr_m (fst (shr_fexp Num.prec Num.emax (Zpos p) e l)))%Z /\
  (emin Num.prec Num.emax <= snd (shr_fexp Num.prec Num.emax (Zpos p) e l))%Z.
Proof.
  intros He. unfold shr_fexp, shr. simpl Zdigits2.
  destruct (fexp Num.prec Num.emax (Zpos (digits2_pos p) + e) - e)%Z
    as [|k|k] eqn:Hn; simpl fst; simpl snd.
  - rewrite record_of_loc_m. split; lia.
  - rewrite iter_shr_1_m by (rewrite record_of_loc_m; lia).
    rewrite record_of_loc_m. split; [|lia].
    apply Z.div_str_pos. split; [apply Z.pow_pos_nonneg; lia|].
    apply Z.le_trans with (2 ^ (Zpos (digits2_pos p) - 1))%Z;
      [|apply digits2_lower].
    apply Z.pow_le_mono_r; [lia|].
    unfold fexp, emin, Num.prec, Num.emax in *. lia.
  - rewrite record_of_loc_m. split; lia.
Qed.

Lemma round_nearest_even_positive (m : Z) (l : location) :
  (0 < m)%Z -> (0 < round_nearest_even m l)%Z.
Proof.
  intros Hm. destruct l as [|[| |]]; simpl; try lia.
  destruct (Z.even m); lia.
Qed.

(** Rounding a negative number whose exponent is in range gives a negative
    number, finite or infinite, never zero and never [NaN]. *)
Lemma round_aux_negative (p : positive) (e : Z) (l : location) :
  (emin Num.prec Num.emax <= e)%Z ->
  Spec.negative_in_range
    (binary_round_aux Num.prec Num.emax true (Zpos p) e l).
Proof.
  intros He. unfold binary_round_aux.
  destruct (shr_fexp_positive p e l He) as [Hm1 He1].
  destruct (shr_fexp Num.prec Num.emax (Zpos p) e l) as [mrs1 e1].
  simpl fst in Hm1. simpl snd in He1.
  pose proof (round_nearest_even_positive _ (loc_of_shr_record mrs1) Hm1)
    as Hr.
  destruct (round_nearest_even (shr_m mrs1) (loc_of_shr_record mrs1))
    as [|q|q]; try lia.
  destruct (shr_fexp_positive q e1 loc_Exact He1) as [Hm2 He2].
  destruct (shr_fexp Num.prec Num.emax (Zpos q) e1 loc_Exact) as [mrs2 e2].
  simpl fst in Hm2. simpl snd in He2.
  destruct (shr_m mrs2) as [|m2|m2]; try lia.
  destruct (Z.leb e2 (Num.emax - Num.prec)); simpl; [exact He2|exact I].
Qed.

Lemma round_negative (p : positive) (e : Z) :
  (emin Num.prec Num.emax <= e)%Z ->
  Spec.negative_in_range (binary_round Num.prec Num.emax true p e).
Proof.
  intros He. unfold binary_round, shl_align.
  destruct (fexp Num.prec Num.emax (Zpos (digits2_pos p) + e) - e)%Z
    eqn:Hd; apply round_aux_negative; try exact He.
  unfold fexp, emin, Num.prec, Num.emax in *. lia.
Qed.

Lemma add_negative (a p : spec_float) :
  Spec.negative_in_range a -> Spec.negative_in_range p ->
  Spec.negative_in_range (Num.add a p).
Proof.
  destruct a as [sa|sa| |sa ma ea]; destruct p as [sp|sp| |sp mp ep];
    try destruct sa; try destruct sp; simpl; intros Ha Hp;
    try contradiction; try exact I.
  unfold Num.add, SFadd, cond_Zopp.
  change (- Zpos (fst (shl_align ma ea (Z.min ea ep)))
          + - Zpos (fst (shl_align mp ep (Z.min ea ep))))%Z
    with (Zneg (fst (shl_align ma ea (Z.min ea ep))
                + fst (shl_align mp ep (Z.min ea ep)))).
  unfold binary_normalize. apply round_negative. lia.
Qed.

Lemma negative_in_range_below_zero (x : spec_float) :
  Spec.negative_in_range x -> Num.ltb x Num.zero = true.
Proof.
  destruct x as [s|s| |s m e]; try destruct s; simpl; intros H;
    try contradiction; reflexivity.
Qed.

Lemma valid_negative_in_range (x : spec_float) :
  valid_binary Num.prec Num.emax x = true ->
  Num.ltb x Num.zero = true ->
  Spec.negative_in_range x.
Proof.
  destruct x as [s|s| |s m e]; try destruct s; simpl; intros Hv Hneg;
    try discriminate Hneg; try exact I.
  unfold bounded, canonical_mantissa in Hv.
  apply andb_prop in Hv. destruct Hv as [Hc _].
  apply Z.eqb_eq in Hc.
  unfold fexp, emin, Num.prec, Num.emax in *. lia.
Qed.

Lemma negative_loop (l : list Txn.t) (acc : spec_float) :
  Spec.negative_in_range acc ->
  (forall t, In t l -> Spec.negative_in_range (Txn.price t)) ->
  Spec.negative_in_range
    (fold_left (fun balance transaction =>
                  Num.add balance (Txn.price transaction)) l acc).
Proof.
  revert acc. induction l as [|t rest IH]; intros acc Hacc Hall; simpl.
  - exact Hacc.
  - apply IH.
    + apply add_negative; [exact Hacc|]. apply Hall. left. reflexivity.
    + intros t' Hin. apply Hall. right. exact Hin.
Qed.

Lemma zero_add_negative (p : spec_float) :
  Spec.negative_in_range p -> Num.add Num.zero p = p.
Proof.
  destruct p as [s|s| |s m e]; try destruct s; simpl; intros H;
    try contradiction; reflexivity.
Qed.

End RoundingFacts.

(** ** The list view and the balance *)

Section ViewFacts.

Variable toLocaleString : string -> string.

Lemma round_aux_not_negative (mx ex : Z) (lx : location) :
  Num.ltb (binary_round_aux Num.prec Num.emax false mx ex lx) Num.zero
  = false.
Proof.
  unfold binary_round_aux.
  destruct (shr_fexp Num.prec Num.emax mx ex lx) as [mrs1 e1].
  destruct (shr_fexp Num.prec Num.emax
              (round_nearest_even (shr_m mrs1) (loc_of_shr_record mrs1))
              e1 loc_Exact) as [mrs2 e2].
  destruct (shr_m mrs2); [reflexivity| |reflexivity].
  destruct (Z.leb e2 (Num.emax - Num.prec)); reflexivity.
Qed.

Lemma normalize_not_negative (m : positive) (e : Z) :
  Num.ltb (binary_normalize Num.prec Num.emax (Zpos m) e false) Num.zero
  = false.
Proof.
  unfold binary_normalize, binary_round.
  destruct (shl_align m e
              (fexp Num.prec Num.emax (Zpos (digits2_pos m) + e)))
    as [mz ez].
  apply round_aux_not_negative.
Qed.

(** Adding two numbers neither of which is below zero gives a number that
    is not below zero, rounding, overflow and [NaN] included. *)
Lemma add_not_negative (a p : spec_float) :
  Num.ltb a Num.zero = false ->
  Num.ltb p Num.zero = false ->
  Num.ltb (Num.add a p) Num.zero = false.
Proof.
  destruct a as [sa|sa| |sa ma ea]; destruct p as [sp|sp| |sp mp ep];
    try destruct sa; try destruct sp;
    intros Ha Hp; try discriminate Ha; try discriminate Hp;
    try reflexivity.
  unfold Num.add, SFadd, cond_Zopp.
  change (Zpos (fst (shl_align ma ea (Z.min ea ep)))
          + Zpos (fst (shl_align mp ep (Z.min ea ep))))%Z
    with (Zpos (fst (shl_align ma ea (Z.min ea ep))
                + fst (shl_align mp ep (Z.min ea ep)))).
  apply normalize_not_negative.
Qed.

Lemma negative_balance_has_negative_price (l : list Txn.t) (acc : spec_float) :
  Num.ltb acc Num.zero = false ->
  Num.ltb (fold_left (fun balance transaction =>
                        Num.add balance (Txn.price transaction)) l acc)
          Num.zero = true ->
  exists t : Txn.t, In t l /\ Num.ltb (Txn.price t) Num.zero = true.
Proof.
  revert acc. induction l as [|t rest IH]; intros acc Hacc Hneg; simpl in *.
  - rewrite Hacc in Hneg. discriminate Hneg.
  - destruct (Num.ltb (Txn.price t) Num.zero) eqn:Ht.
    + exists t. split; [left; reflexivity|exact Ht].
    + destruct (IH _ (add_not_negative _ _ Hacc Ht) Hneg) as (t' & Hin & Ht').
      exists t'. split; [right; exact Hin|exact Ht'].
Qed.

Lemma rendered_rows (st : Client.State) :
  View.render_transactions toLocaleString st
  = List.map (View.render_transaction toLocaleString) (Client.transactions st).
Proof.
  unfold View.render_transactions.
  destruct (Client.transactions st); reflexivity.
Qed.

Lemma red_row_negative_price (t : Txn.t) :
  View.price_class (View.render_transaction toLocaleString t) = "price red"
  <-> Num.ltb (Txn.price t) Num.zero = true.
Proof.
  unfold View.render_transaction. simpl.
  destruct (Num.ltb (Txn.price t) Num.zero); split; intros H;
    try reflexivity; discriminate H.
Qed.

(** X9: a red balance is never shown above a list without a red row: when
    the balance is red, some rendered transaction has the red price class.
    This holds for the binary64 sum of the loop, whatever rounds or
    overflows on the way. *)
Theorem red_balance_has_red_row (st : Client.State) :
  Client.balance_color st = "red" ->
  exists row : View.Row,
    In row (View.render_transactions toLocaleString st) /\
    View.price_class row = "price red".
Proof.
  unfold Client.balance_color.
  destruct (Num.ltb (Client.balance st) Num.zero) eqn:Hneg;
    [intros _|discriminate].
  destruct (negative_balance_has_negative_price
              (Client.transactions st) Num.zero eq_refl Hneg)
    as (t & Hin & Ht).
  exists (View.render_transaction toLocaleString t).
  rewrite rendered_rows. split.
  - apply in_map. exact Hin.
  - apply red_row_negative_price. exact Ht.
Qed.

(** X10: when at least one transaction row is rendered, every rendered row
    has the red price class and every price is a binary64 number, the
    balance is shown in red: a sum of negative numbers does not round to
    zero. *)
Theorem all_rows_red_balance_red (st : Client.State) :
  (forall t, In t (Client.transactions st) ->
             valid_binary Num.prec Num.emax (Txn.price t) = true) ->
  View.render_transactions toLocaleString st <> [] ->
  (forall row, In row (View.render_transactions toLocaleString st) ->
               View.price_class row = "price red") ->
  Client.balance_color st = "red".
Proof.
  rewrite rendered_rows. intros Hvalid Hne Hall.
  assert (Hneg : forall t, In t (Client.transactions st) ->
                           Spec.negative_in_range (Txn.price t)).
  { intros t Hin. apply valid_negative_in_range; [exact (Hvalid t Hin)|].
    apply red_row_negative_price. apply Hall. apply in_map. exact Hin. }
  unfold Client.balance_color, Client.balance.
  destruct (Client.transactions st) as [|t rest].
  - exfalso. apply Hne. reflexivity.
  - cbn [fold_left].
    rewrite (zero_add_negative _ (Hneg t (or_introl eq_refl))).
    rewrite negative_in_range_below_zero; [reflexivity|].
    apply negative_loop.
    + apply Hneg. left. reflexivity.
    + intros t' Hin. apply Hneg. right. exact Hin.
Qed.

End ViewFacts.

Lemma all_rows_red_balance_red_witness :
  Client.balance_color
    (Client.mkState "" "" ""
       [Txn.mk "1" "tea" "monday" "" (Num.of_Z (-20));
        Txn.mk "2" "rent" "may" "" (Num.dyadic (-1001) (-1))])
  = "red".
Proof.
  apply (all_rows_red_balance_red (fun s => s)
           (Client.mkState "" "" ""
              [Txn.mk "1" "tea" "monday" "" (Num.of_Z (-20));
               Txn.mk "2" "rent" "may" "" (Num.dyadic (-1001) (-1))])).
  - simpl. intros t [<-|[<-|Hf]]; [reflexivity|reflexivity|contradiction].
  - simpl. discriminate.
  - simpl. intros row [<-|[<-|Hf]]; [reflexivity|reflexivity|contradiction].
Defined.

Lemma red_balance_has_red_row_witness :
  exists row : View.Row,
    In row (View.render_transactions (fun s => s)
              (Client.mkState "" "" ""
                 [Txn.mk "1" "salary" "may" "2025-05-01T09:00"
                         (Num.of_Z 300);
                  Txn.mk "2" "rent" "may" "" (Num.dyadic (-1001) (-1))])) /\
    View.price_class row = "price red".
Proof.
  apply (red_balance_has_red_row (fun s => s)
           (Client.mkState "" "" ""
              [Txn.mk "1" "salary" "may" "2025-05-01T09:00" (Num.of_Z 300);
               Txn.mk "2" "rent" "may" "" (Num.dyadic (-1001) (-1))])).
  reflexivity.
Defined.

(** ** From a submit to the store *)

Section WireFacts.

Variables (S E : Type).
Variable create : Server.NewDoc -> S -> Server.Result E JSVal * S.

Lemma parse_payload (st : Client.State) :
  Wire.parse_body (Client.payload st)
  = Some (<["dateTime" := JStr (Client.dateTime st)]>
            (<["description" := JStr (Client.description st)]>
               (<["name" := JStr (Spec.after_space (Client.name st))]>
                  (<["price" := JStr (Spec.before_space (Client.name st))]>
                     ∅)))).
Proof. rewrite payload_fields. reflexivity. Qed.

(** X11: the document the create route hands to the store for a body posted
    by the client has all four fields, each of them a string: the
    description and the dateTime as typed, the text before the first space
    as price and the text after it as name.  The price reaches the store as
    a string, for every store. *)
Theorem submitted_document (st : Client.State) (store : S) :
  exists body : gmap string JSVal,
    Wire.parse_body (Client.payload st) = Some body /\
    Server.new_doc body
    = {| Server.name := JStr (Spec.after_space (Client.name st));
         Server.description := JStr (Client.description st);
         Server.dateTime := JStr (Client.dateTime st);
         Server.price := JStr (Spec.before_space (Client.name st)) |} /\
    Server.store (Server.post_transaction S E create body store)
    = snd (create
             {| Server.name := JStr (Spec.after_space (Client.name st));
                Server.description := JStr (Client.description st);
                Server.dateTime := JStr (Client.dateTime st);
                Server.price := JStr (Spec.before_space (Client.name st)) |}
             store).
Proof.
  eexists. split; [apply parse_payload|].
  assert (Hdoc : forall m : gmap string JSVal,
             m = <["dateTime" := JStr (Client.dateTime st)]>
                   (<["description" := JStr (Client.description st)]>
                      (<["name" := JStr (Spec.after_space (Client.name st))]>
                         (<["price" :=
                              JStr (Spec.before_space (Client.name st))]>
                            ∅))) ->
             Server.new_doc m
             = {| Server.name := JStr (Spec.after_space (Client.name st));
                  Server.description := JStr (Client.description st);
                  Server.dateTime := JStr (Client.dateTime st);
                  Server.price :=
                    JStr (Spec.before_space (Client.name st)) |}).
  { intros m ->. unfold Server.new_doc, Server.field.
    repeat (rewrite lookup_insert_eq || (rewrite lookup_insert_ne by done)).
    reflexivity. }
  split; [apply Hdoc; reflexivity|].
  unfold Server.post_transaction. rewrite (Hdoc _ eq_refl).
  destruct (create _ store) as [[transaction|err] store']; reflexivity.
Qed.

End WireFacts.

(** ** What the routes log *)

Section LogFacts.

Variables (S E : Type).
Variable find : S -> Server.Result E (list JSVal).
Variable create : Server.NewDoc -> S -> Server.Result E JSVal * S.

(** X12: both routes write to the error log exactly when they answer 500,
    one line per failed request carrying the error of the store, and a
    request answered 200 logs nothing.  The status is never anything but
    200 or 500. *)
Theorem routes_log_exactly_failures (body : gmap string JSVal) (st : S) :
  let listing := Server.get_transaction S E find st in
  let creation := Server.post_transaction S E create body st in
  (Server.statusCode (Server.response listing) = 200
   /\ Server.logged listing = []
   \/ Server.statusCode (Server.response listing) = 500
      /\ exists err, find st = Server.Err err
                     /\ List.map snd (Server.logged listing) = [err]) /\
  (Server.statusCode (Server.response creation) = 200
   /\ Server.logged creation = []
   \/ Server.statusCode (Server.response creation) = 500
      /\ exists err, fst (create (Server.new_doc body) st) = Server.Err err
                     /\ List.map snd (Server.logged creation) = [err]).
Proof.
  simpl. unfold Server.get_transaction, Server.post_transaction. split.
  - destruct (find st) as [transactions|err]; simpl.
    + left. split; reflexivity.
    + right. split; [reflexivity|]. exists err. split; reflexivity.
  - destruct (create (Server.new_doc body) st) as [[transaction|err] st'];
      simpl.
    + left. split; reflexivity.
    + right. split; [reflexivity|]. exists err. split; reflexivity.
Qed.

End LogFacts.
